(** * wego / pkg/model/lexvec/options.go

    A shallow embedding of the LexVec hyperparameter options: the
    [RelationType] enum with its pointer-receiver methods, the package-level
    defaults, [DefaultOptions], the cobra/pflag binding [LoadForCmd] and the
    functional option builders ([ModelOption]).

    Conventions of the embedding:
    - Go [int] is [Z] (no arithmetic is performed on it here, values are only
      stored), [float64] is Rocq's primitive binary64 [float], [bool] is
      [bool] and [string] is [string] (a sequence of bytes, as in Go).
    - A method with a pointer receiver [*RelationType] is a computation in
      the state monad over the pointee; a [ModelOption], a function on a
      pointer to [Options], is a function from the pointee before the call
      to the pointee after it.
      Pointers are taken to be non-nil, as they are at every use in the
      package ([&options], [&opts.RelationType]).
    - The package-level [var] block is a record [Vars] that is filled once,
      when the package is initialised. *)

From Stdlib Require Import ZArith String List Bool Lia PrimFloat.
From ExtLib Require Import Structures.Monad Structures.MonadState.
From ExtLib Require Import Data.Monads.StateMonad Data.Monads.OptionMonad.
Import ListNotations.
Import MonadNotation.
Local Open Scope monad_scope.
Local Open Scope string_scope.
Local Open Scope Z_scope.

#[local] Existing Instance Monad_stateT.

(* Decimal literals are rounded to the nearest binary64 value, as the Go
   compiler does when a constant is converted to float64. *)
Set Warnings "-inexact-float".

(** ** The relation type *)

(** [type RelationType string] *)
Definition RelationType : Type := string.

Definition PPMI : RelationType := "ppmi".
Definition PMI : RelationType := "pmi".
Definition Collocation : RelationType := "co".
Definition LogCollocation : RelationType := "logco".
Definition defaultRelationType : RelationType := PPMI.

(** The value built by [errors.Errorf]: only its message is modelled. *)
Inductive error : Type :=
| Errorf (msg : string).

Definition Error (e : error) : string :=
  match e with Errorf msg => msg end.

(** [%s] applied to a [RelationType] value prints the underlying string:
    [String] is declared on the pointer type, so a plain value is not a
    [fmt.Stringer] and no lazy defaulting happens while formatting. *)
Definition invalidRelationTypeError (typ : RelationType) : error :=
  Errorf ("invalid relation type: " ++ typ ++ " not in "
          ++ PPMI ++ "|" ++ PMI ++ "|" ++ Collocation ++ "|" ++ LogCollocation).

(** [func (t *RelationType) String() string] *)
Definition RelationType_String : state RelationType string :=
  t <- get ;;
  (if String.eqb t "" then put defaultRelationType else ret tt) ;;
  t' <- get ;;
  ret t'.

(** [func (t *RelationType) Set(name string) error]; [None] is [nil]. *)
Definition RelationType_Set (name : string) : state RelationType (option error) :=
  let typ : RelationType := name in
  if String.eqb typ PPMI || String.eqb typ PMI
     || String.eqb typ Collocation || String.eqb typ LogCollocation
  then put typ ;; ret None
  else ret (Some (invalidRelationTypeError typ)).

(** [func (t *RelationType) Type() string] *)
Definition RelationType_Type : state RelationType string :=
  RelationType_String.

(** ** The host and the package-level variables *)

(** The executing host, as far as the package looks at it: the number of
    logical CPUs it reports. *)
Record Host : Type := { cpus : Z }.

(** The count the Go runtime takes from a host. The runtime queries the
    host once, when the process starts on it, and [runtime.NumCPU()]
    returns that count for the life of the process. *)
Definition runtime_NumCPU (h : Host) : Z := cpus h.

(** The package-level [var ( ... )] block. *)
Record Vars : Type := {
  defaultBatchSize : Z;
  defaultDim : Z;
  defaultDocInMemory : bool;
  defaultGoroutines : Z;
  defaultInitlr : float;
  defaultIter : Z;
  defaultMaxCount : Z;
  defaultMinCount : Z;
  defaultNegativeSampleSize : Z;
  defaultSmooth : float;
  defaultSubsampleThreshold : float;
  defaultTheta : float;
  defaultToLower : bool;
  defaultVerbose : bool;
  defaultWindow : Z
}.

(** Package initialisation: every initialiser of the [var] block is
    evaluated once, on the host the program is loaded on. The only
    initialiser that looks at the host is [runtime.NumCPU()]. *)
Definition initVars (h : Host) : Vars := {|
  defaultBatchSize := 100000;
  defaultDim := 10;
  defaultDocInMemory := false;
  defaultGoroutines := runtime_NumCPU h;
  defaultInitlr := 0.025%float;
  defaultIter := 15;
  defaultMaxCount := (-1);
  defaultMinCount := 5;
  defaultNegativeSampleSize := 5;
  defaultSmooth := 0.75%float;
  defaultSubsampleThreshold := 1.0e-3%float;
  defaultTheta := 1.0e-4%float;
  defaultToLower := false;
  defaultVerbose := false;
  defaultWindow := 5
|}.

(** A running program: the host as it is now, the host as the runtime
    found it when the process started, and the package variables. *)
Record World : Type := { host : Host; startup : Host; vars : Vars }.

(** Program load on host [h]: the runtime queries the host, then the
    package is initialised. *)
Definition load (h : Host) : World :=
  {| host := h; startup := h; vars := initVars h |}.

(** The host changes under the running program (CPUs are taken away from
    or given to the process); neither what the runtime recorded nor the
    package variables are touched. *)
Definition rehost (h' : Host) (w : World) : World :=
  {| host := h'; startup := startup w; vars := vars w |}.

(** [runtime.NumCPU()] called in a running program: the count of the host
    the process started on; changes of the host after process start are
    not reflected. *)
Definition NumCPU (w : World) : Z := runtime_NumCPU (startup w).

(** The worlds a program loaded on [h0] can be in: no statement of the
    package assigns to a package variable, so only the host moves. *)
Inductive running (h0 : Host) : World -> Prop :=
| running_load : running h0 (load h0)
| running_rehost (w : World) (h' : Host) :
    running h0 w -> running h0 (rehost h' w).

(** ** The options record *)

Module Options.

(** [type Options struct { ... }] *)
Record t : Type := mk {
  BatchSize : Z;
  Dim : Z;
  DocInMemory : bool;
  Goroutines : Z;
  Initlr : float;
  Iter : Z;
  MaxCount : Z;
  MinCount : Z;
  NegativeSampleSize : Z;
  RelationType : RelationType;
  Smooth : float;
  SubsampleThreshold : float;
  Theta : float;
  ToLower : bool;
  Verbose : bool;
  Window : Z
}.

(** The zero value of the struct ([var opts Options]). *)
Definition zero : t :=
  mk 0 0 false 0 0%float 0 0 0 0 "" 0%float 0%float 0%float false false 0.

(** Field assignments [opts.F = v]. *)
Definition set_BatchSize (v : Z) (o : t) : t :=
  {| BatchSize := v; Dim := Dim o; DocInMemory := DocInMemory o;
     Goroutines := Goroutines o; Initlr := Initlr o; Iter := Iter o;
     MaxCount := MaxCount o; MinCount := MinCount o;
     NegativeSampleSize := NegativeSampleSize o;
     RelationType := RelationType o; Smooth := Smooth o;
     SubsampleThreshold := SubsampleThreshold o; Theta := Theta o;
     ToLower := ToLower o; Verbose := Verbose o; Window := Window o |}.

Definition set_Dim (v : Z) (o : t) : t :=
  {| BatchSize := BatchSize o; Dim := v; DocInMemory := DocInMemory o;
     Goroutines := Goroutines o; Initlr := Initlr o; Iter := Iter o;
     MaxCount := MaxCount o; MinCount := MinCount o;
     NegativeSampleSize := NegativeSampleSize o;
     RelationType := RelationType o; Smooth := Smooth o;
     SubsampleThreshold := SubsampleThreshold o; Theta := Theta o;
     ToLower := ToLower o; Verbose := Verbose o; Window := Window o |}.

Definition set_DocInMemory (v : bool) (o : t) : t :=
  {| BatchSize := BatchSize o; Dim := Dim o; DocInMemory := v;
     Goroutines := Goroutines o; Initlr := Initlr o; Iter := Iter o;
     MaxCount := MaxCount o; MinCount := MinCount o;
     NegativeSampleSize := NegativeSampleSize o;
     RelationType := RelationType o; Smooth := Smooth o;
     SubsampleThreshold := SubsampleThreshold o; Theta := Theta o;
     ToLower := ToLower o; Verbose := Verbose o; Window := Window o |}.

Definition set_Goroutines (v : Z) (o : t) : t :=
  {| BatchSize := BatchSize o; Dim := Dim o; DocInMemory := DocInMemory o;
     Goroutines := v; Initlr := Initlr o; Iter := Iter o;
     MaxCount := MaxCount o; MinCount := MinCount o;
     NegativeSampleSize := NegativeSampleSize o;
     RelationType := RelationType o; Smooth := Smooth o;
     SubsampleThreshold := SubsampleThreshold o; Theta := Theta o;
     ToLower := ToLower o; Verbose := Verbose o; Window := Window o |}.

Definition set_Initlr (v : float) (o : t) : t :=
  {| BatchSize := BatchSize o; Dim := Dim o; DocInMemory := DocInMemory o;
     Goroutines := Goroutines o; Initlr := v; Iter := Iter o;
     MaxCount := MaxCount o; MinCount := MinCount o;
     NegativeSampleSize := NegativeSampleSize o;
     RelationType := RelationType o; Smooth := Smooth o;
     SubsampleThreshold := SubsampleThreshold o; Theta := Theta o;
     ToLower := ToLower o; Verbose := Verbose o; Window := Window o |}.

Definition set_Iter (v : Z) (o : t) : t :=
  {| BatchSize := BatchSize o; Dim := Dim o; DocInMemory := DocInMemory o;
     Goroutines := Goroutines o; Initlr := Initlr o; Iter := v;
     MaxCount := MaxCount o; MinCount := MinCount o;
     NegativeSampleSize := NegativeSampleSize o;
     RelationType := RelationType o; Smooth := Smooth o;
     SubsampleThreshold := SubsampleThreshold o; Theta := Theta o;
     ToLower := ToLower o; Verbose := Verbose o; Window := Window o |}.

Definition set_MaxCount (v : Z) (o : t) : t :=
  {| BatchSize := BatchSize o; Dim := Dim o; DocInMemory := DocInMemory o;
     Goroutines := Goroutines o; Initlr := Initlr o; Iter := Iter o;
     MaxCount := v; MinCount := MinCount o;
     NegativeSampleSize := NegativeSampleSize o;
     RelationType := RelationType o; Smooth := Smooth o;
     SubsampleThreshold := SubsampleThreshold o; Theta := Theta o;
     ToLower := ToLower o; Verbose := Verbose o; Window := Window o |}.

Definition set_MinCount (v : Z) (o : t) : t :=
  {| BatchSize := BatchSize o; Dim := Dim o; DocInMemory := DocInMemory o;
     Goroutines := Goroutines o; Initlr := Initlr o; Iter := Iter o;
     MaxCount := MaxCount o; MinCount := v;
     NegativeSampleSize := NegativeSampleSize o;
     RelationType := RelationType o; Smooth := Smooth o;
     SubsampleThreshold := SubsampleThreshold o; Theta := Theta o;
     ToLower := ToLower o; Verbose := Verbose o; Window := Window o |}.

Definition set_NegativeSampleSize (v : Z) (o : t) : t :=
  {| BatchSize := BatchSize o; Dim := Dim o; DocInMemory := DocInMemory o;
     Goroutines := Goroutines o; Initlr := Initlr o; Iter := Iter o;
     MaxCount := MaxCount o; MinCount := MinCount o; NegativeSampleSize := v;
     RelationType := RelationType o; Smooth := Smooth o;
     SubsampleThreshold := SubsampleThreshold o; Theta := Theta o;
     ToLower := ToLower o; Verbose := Verbose o; Window := Window o |}.

Definition set_RelationType (v : string) (o : t) : t :=
  {| BatchSize := BatchSize o; Dim := Dim o; DocInMemory := DocInMemory o;
     Goroutines := Goroutines o; Initlr := Initlr o; Iter := Iter o;
     MaxCount := MaxCount o; MinCount := MinCount o;
     NegativeSampleSize := NegativeSampleSize o; RelationType := v;
     Smooth := Smooth o; SubsampleThreshold := SubsampleThreshold o;
     Theta := Theta o; ToLower := ToLower o; Verbose := Verbose o;
     Window := Window o |}.

Definition set_Smooth (v : float) (o : t) : t :=
  {| BatchSize := BatchSize o; Dim := Dim o; DocInMemory := DocInMemory o;
     Goroutines := Goroutines o; Initlr := Initlr o; Iter := Iter o;
     MaxCount := MaxCount o; MinCount := MinCount o;
     NegativeSampleSize := NegativeSampleSize o;
     RelationType := RelationType o; Smooth := v;
     SubsampleThreshold := SubsampleThreshold o; Theta := Theta o;
     ToLower := ToLower o; Verbose := Verbose o; Window := Window o |}.

Definition set_SubsampleThreshold (v : float) (o : t) : t :=
  {| BatchSize := BatchSize o; Dim := Dim o; DocInMemory := DocInMemory o;
     Goroutines := Goroutines o; Initlr := Initlr o; Iter := Iter o;
     MaxCount := MaxCount o; MinCount := MinCount o;
     NegativeSampleSize := NegativeSampleSize o;
     RelationType := RelationType o; Smooth := Smooth o;
     SubsampleThreshold := v; Theta := Theta o; ToLower := ToLower o;
     Verbose := Verbose o; Window := Window o |}.

Definition set_Theta (v : float) (o : t) : t :=
  {| BatchSize := BatchSize o; Dim := Dim o; DocInMemory := DocInMemory o;
     Goroutines := Goroutines o; Initlr := Initlr o; Iter := Iter o;
     MaxCount := MaxCount o; MinCount := MinCount o;
     NegativeSampleSize := NegativeSampleSize o;
     RelationType := RelationType o; Smooth := Smooth o;
     SubsampleThreshold := SubsampleThreshold o; Theta := v;
     ToLower := ToLower o; Verbose := Verbose o; Window := Window o |}.

Definition set_ToLower (v : bool) (o : t) : t :=
  {| BatchSize := BatchSize o; Dim := Dim o; DocInMemory := DocInMemory o;
     Goroutines := Goroutines o; Initlr := Initlr o; Iter := Iter o;
     MaxCount := MaxCount o; MinCount := MinCount o;
     NegativeSampleSize := NegativeSampleSize o;
     RelationType := RelationType o; Smooth := Smooth o;
     SubsampleThreshold := SubsampleThreshold o; Theta := Theta o;
     ToLower := v; Verbose := Verbose o; Window := Window o |}.

Definition set_Verbose (v : bool) (o : t) : t :=
  {| BatchSize := BatchSize o; Dim := Dim o; DocInMemory := DocInMemory o;
     Goroutines := Goroutines o; Initlr := Initlr o; Iter := Iter o;
     MaxCount := MaxCount o; MinCount := MinCount o;
     NegativeSampleSize := NegativeSampleSize o;
     RelationType := RelationType o; Smooth := Smooth o;
     SubsampleThreshold := SubsampleThreshold o; Theta := Theta o;
     ToLower := ToLower o; Verbose := v; Window := Window o |}.

Definition set_Window (v : Z) (o : t) : t :=
  {| BatchSize := BatchSize o; Dim := Dim o; DocInMemory := DocInMemory o;
     Goroutines := Goroutines o; Initlr := Initlr o; Iter := Iter o;
     MaxCount := MaxCount o; MinCount := MinCount o;
     NegativeSampleSize := NegativeSampleSize o;
     RelationType := RelationType o; Smooth := Smooth o;
     SubsampleThreshold := SubsampleThreshold o; Theta := Theta o;
     ToLower := ToLower o; Verbose := Verbose o; Window := v |}.

End Options.

(** The names of the sixteen fields. *)
Inductive Field : Type :=
| FBatchSize
| FDim
| FDocInMemory
| FGoroutines
| FInitlr
| FIter
| FMaxCount
| FMinCount
| FNegativeSampleSize
| FRelationType
| FSmooth
| FSubsampleThreshold
| FTheta
| FToLower
| FVerbose
| FWindow.

Definition Field_eq_dec (f f' : Field) : {f = f'} + {f <> f'}.
Proof. decide equality. Defined.

Definition Field_eqb (f f' : Field) : bool :=
  if Field_eq_dec f f' then true else false.

Definition all_fields : list Field :=
  [FBatchSize; FDim; FDocInMemory; FGoroutines; FInitlr; FIter;
   FMaxCount; FMinCount; FNegativeSampleSize; FRelationType; FSmooth;
   FSubsampleThreshold; FTheta; FToLower; FVerbose; FWindow].

(** What a field can hold. *)
Inductive Val : Type :=
| VInt (v : Z)
| VBool (v : bool)
| VFloat (v : float)
| VRel (v : RelationType).

(** Reading a field by name: [opts.F]. *)
Definition fieldValue (f : Field) (o : Options.t) : Val :=
  match f with
  | FBatchSize => VInt (Options.BatchSize o)
  | FDim => VInt (Options.Dim o)
  | FDocInMemory => VBool (Options.DocInMemory o)
  | FGoroutines => VInt (Options.Goroutines o)
  | FInitlr => VFloat (Options.Initlr o)
  | FIter => VInt (Options.Iter o)
  | FMaxCount => VInt (Options.MaxCount o)
  | FMinCount => VInt (Options.MinCount o)
  | FNegativeSampleSize => VInt (Options.NegativeSampleSize o)
  | FRelationType => VRel (Options.RelationType o)
  | FSmooth => VFloat (Options.Smooth o)
  | FSubsampleThreshold => VFloat (Options.SubsampleThreshold o)
  | FTheta => VFloat (Options.Theta o)
  | FToLower => VBool (Options.ToLower o)
  | FVerbose => VBool (Options.Verbose o)
  | FWindow => VInt (Options.Window o)
  end.

(** [func DefaultOptions() Options]: reads the package variables. *)
Definition DefaultOptions (g : Vars) : Options.t := {|
  Options.BatchSize := defaultBatchSize g;
  Options.Dim := defaultDim g;
  Options.DocInMemory := defaultDocInMemory g;
  Options.Goroutines := defaultGoroutines g;
  Options.Initlr := defaultInitlr g;
  Options.Iter := defaultIter g;
  Options.MaxCount := defaultMaxCount g;
  Options.MinCount := defaultMinCount g;
  Options.NegativeSampleSize := defaultNegativeSampleSize g;
  Options.RelationType := defaultRelationType;
  Options.Smooth := defaultSmooth g;
  Options.SubsampleThreshold := defaultSubsampleThreshold g;
  Options.Theta := defaultTheta g;
  Options.ToLower := defaultToLower g;
  Options.Verbose := defaultVerbose g;
  Options.Window := defaultWindow g
|}.

(** ** Pointers into the options record *)

(** [&opts.F]: a typed pointer to one field of the record [opts] points to. *)
Inductive Ptr : Type -> Type :=
| opts_BatchSize : Ptr Z
| opts_Dim : Ptr Z
| opts_DocInMemory : Ptr bool
| opts_Goroutines : Ptr Z
| opts_Initlr : Ptr float
| opts_Iter : Ptr Z
| opts_MaxCount : Ptr Z
| opts_MinCount : Ptr Z
| opts_NegativeSampleSize : Ptr Z
| opts_RelationType : Ptr RelationType
| opts_Smooth : Ptr float
| opts_SubsampleThreshold : Ptr float
| opts_Theta : Ptr float
| opts_ToLower : Ptr bool
| opts_Verbose : Ptr bool
| opts_Window : Ptr Z.

Definition fieldOf {A : Type} (p : Ptr A) : Field :=
  match p with
  | opts_BatchSize => FBatchSize
  | opts_Dim => FDim
  | opts_DocInMemory => FDocInMemory
  | opts_Goroutines => FGoroutines
  | opts_Initlr => FInitlr
  | opts_Iter => FIter
  | opts_MaxCount => FMaxCount
  | opts_MinCount => FMinCount
  | opts_NegativeSampleSize => FNegativeSampleSize
  | opts_RelationType => FRelationType
  | opts_Smooth => FSmooth
  | opts_SubsampleThreshold => FSubsampleThreshold
  | opts_Theta => FTheta
  | opts_ToLower => FToLower
  | opts_Verbose => FVerbose
  | opts_Window => FWindow
  end.

(** [*p] *)
Definition deref {A : Type} (p : Ptr A) : Options.t -> A :=
  match p in Ptr A return Options.t -> A with
  | opts_BatchSize => Options.BatchSize
  | opts_Dim => Options.Dim
  | opts_DocInMemory => Options.DocInMemory
  | opts_Goroutines => Options.Goroutines
  | opts_Initlr => Options.Initlr
  | opts_Iter => Options.Iter
  | opts_MaxCount => Options.MaxCount
  | opts_MinCount => Options.MinCount
  | opts_NegativeSampleSize => Options.NegativeSampleSize
  | opts_RelationType => Options.RelationType
  | opts_Smooth => Options.Smooth
  | opts_SubsampleThreshold => Options.SubsampleThreshold
  | opts_Theta => Options.Theta
  | opts_ToLower => Options.ToLower
  | opts_Verbose => Options.Verbose
  | opts_Window => Options.Window
  end.

(** [*p = v] *)
Definition assign {A : Type} (p : Ptr A) : A -> Options.t -> Options.t :=
  match p in Ptr A return A -> Options.t -> Options.t with
  | opts_BatchSize => Options.set_BatchSize
  | opts_Dim => Options.set_Dim
  | opts_DocInMemory => Options.set_DocInMemory
  | opts_Goroutines => Options.set_Goroutines
  | opts_Initlr => Options.set_Initlr
  | opts_Iter => Options.set_Iter
  | opts_MaxCount => Options.set_MaxCount
  | opts_MinCount => Options.set_MinCount
  | opts_NegativeSampleSize => Options.set_NegativeSampleSize
  | opts_RelationType => Options.set_RelationType
  | opts_Smooth => Options.set_Smooth
  | opts_SubsampleThreshold => Options.set_SubsampleThreshold
  | opts_Theta => Options.set_Theta
  | opts_ToLower => Options.set_ToLower
  | opts_Verbose => Options.set_Verbose
  | opts_Window => Options.set_Window
  end.

(** ** The flag registrar *)

(** Modelled from the spec: the flag-registration primitives of the
    external flag parser (github.com/spf13/pflag behind [cmd.Flags()]),
    which this package calls and does not implement. A value bound to a
    flag is one of the parser's own int, bool and float64 values, or a
    custom value: a [*RelationType], used through its [String], [Set] and
    [Type] methods. Where the spec is silent (what a registration does to
    the pointee, when it panics) the definitions follow the parser's
    documented behaviour. *)
Inductive Value : Type :=
| intValue (p : Ptr Z)
| boolValue (p : Ptr bool)
| float64Value (p : Ptr float)
| customValue (p : Ptr RelationType).

(** The field of the configuration a bound value writes to. *)
Definition targetOf (v : Value) : Field :=
  match v with
  | intValue p => fieldOf p
  | boolValue p => fieldOf p
  | float64Value p => fieldOf p
  | customValue p => fieldOf p
  end.

(** Modelled from the spec: one registration, with its long name, its short
    alias (empty when it has none), its help string, the bound value and the
    default the parser shows for it. The parser keeps the default as the
    text [value.String()] gave at registration; the value behind that text
    is kept here. *)
Record Flag : Type := {
  Name : string;
  Shorthand : string;
  Usage : string;
  Bound : Value;
  DefValue : Val
}.

(** What [LoadForCmd] works on: the flag set of [cmd], in registration
    order, and the record [opts] points to. *)
Record Cmd : Type := { Flags : list Flag; Opts : Options.t }.

(** A call into the registrar: it changes the flag set and the pointee of
    [opts], or panics ([None]). *)
Definition reg : Type -> Type := stateT Cmd option.

Definition panic {A : Type} : reg A := mkStateT (fun _ => None).

(** Runs a pointer-receiver method on the field [p] points to. *)
Definition onField {T A : Type} (p : Ptr T) (m : state T A) : reg A :=
  c <- get ;;
  let (a, t') := runState m (deref p (Opts c)) in
  put {| Flags := Flags c; Opts := assign p t' (Opts c) |} ;;
  ret a.

(** Modelled from the spec: [value.String()], as a value rather than its
    text. The parser's own values render the pointee; a custom value runs
    the enum's [String] method on it. *)
Definition Value_String (v : Value) : reg Val :=
  match v with
  | intValue p => x <- onField p get ;; ret (VInt x)
  | boolValue p => x <- onField p get ;; ret (VBool x)
  | float64Value p => x <- onField p get ;; ret (VFloat x)
  | customValue p => x <- onField p RelationType_String ;; ret (VRel x)
  end.

(** Whether a flag set already has a flag of that long name, or of that
    short alias. *)
Definition nameUsed (name : string) (fs : list Flag) : bool :=
  existsb (fun f => String.eqb (Name f) name) fs.

Definition aliasUsed (shorthand : string) (fs : list Flag) : bool :=
  existsb (fun f => String.eqb (Shorthand f) shorthand) fs.

(** Modelled from the spec: the parser's [AddFlag]. It panics when the long
    name or the short alias is already registered, or when the alias is
    longer than one character. *)
Definition AddFlag (flag : Flag) : reg unit :=
  c <- get ;;
  if nameUsed (Name flag) (Flags c) then panic
  else if (1 <? String.length (Shorthand flag))%nat then panic
  else if negb (String.eqb (Shorthand flag) "")
          && aliasUsed (Shorthand flag) (Flags c)
  then panic
  else put {| Flags := Flags c ++ [flag]; Opts := Opts c |}.

(** Modelled from the spec: [VarP] records what [value.String()] returns at
    registration as the flag's default; [Var] is [VarP] without an alias. *)
Definition VarP (value : Value) (name shorthand usage : string) : reg unit :=
  d <- Value_String value ;;
  AddFlag {| Name := name; Shorthand := shorthand; Usage := usage;
             Bound := value; DefValue := d |}.

Definition Var (value : Value) (name usage : string) : reg unit :=
  VarP value name "" usage.

(** Modelled from the spec: the typed registrations store the default
    through the pointer first ([*p = value]) and then register the value. *)
Definition IntVarP (p : Ptr Z) (name shorthand : string) (value : Z)
    (usage : string) : reg unit :=
  onField p (put value) ;;
  VarP (intValue p) name shorthand usage.

Definition IntVar (p : Ptr Z) (name : string) (value : Z) (usage : string)
    : reg unit :=
  IntVarP p name "" value usage.

Definition BoolVar (p : Ptr bool) (name : string) (value : bool)
    (usage : string) : reg unit :=
  onField p (put value) ;;
  VarP (boolValue p) name "" usage.

Definition Float64Var (p : Ptr float) (name : string) (value : float)
    (usage : string) : reg unit :=
  onField p (put value) ;;
  VarP (float64Value p) name "" usage.

(** ** Binding the options to a command *)

(** [func LoadForCmd(cmd *cobra.Command, opts *Options)] *)
Definition LoadForCmd (g : Vars) : reg unit :=
  IntVar opts_BatchSize "batch" (defaultBatchSize g) "batch size to train" ;;
  IntVarP opts_Dim "dim" "d" (defaultDim g) "dimension for word vector" ;;
  IntVar opts_Goroutines "goroutines" (defaultGoroutines g)
    "number of goroutine" ;;
  BoolVar opts_DocInMemory "in-memory" (defaultDocInMemory g)
    "whether to store the doc in memory" ;;
  Float64Var opts_Initlr "initlr" (defaultInitlr g) "initial learning rate" ;;
  IntVar opts_Iter "iter" (defaultIter g) "number of iteration" ;;
  IntVar opts_MaxCount "max-count" (defaultMaxCount g)
    "upper limit to filter words" ;;
  IntVar opts_MinCount "min-count" (defaultMinCount g)
    "lower limit to filter words" ;;
  IntVar opts_NegativeSampleSize "sample" (defaultNegativeSampleSize g)
    "negative sample size" ;;
  Var (customValue opts_RelationType) "rel"
    ("relation type for co-occurrence words. One of "
     ++ PPMI ++ "|" ++ PMI ++ "|" ++ Collocation ++ "|" ++ LogCollocation) ;;
  Float64Var opts_Smooth "smooth" (defaultSmooth g)
    "smoothing value for co-occurence value" ;;
  Float64Var opts_SubsampleThreshold "threshold" (defaultSubsampleThreshold g)
    "threshold for subsampling" ;;
  Float64Var opts_Theta "theta" (defaultTheta g)
    "lower limit of learning rate (lr >= initlr * theta)" ;;
  BoolVar opts_ToLower "to-lower" (defaultToLower g)
    "whether the words on corpus convert to lowercase or not" ;;
  BoolVar opts_Verbose "verbose" (defaultVerbose g) "verbose mode" ;;
  IntVarP opts_Window "window" "w" (defaultWindow g) "context window size".

(** Whether [LoadForCmd] can register its flags in a flag set: none of its
    long names and neither of its two aliases is taken. *)
Definition usable (fs : list Flag) : bool :=
  negb (nameUsed "batch" fs)
  && negb (nameUsed "dim" fs) && negb (aliasUsed "d" fs)
  && negb (nameUsed "goroutines" fs)
  && negb (nameUsed "in-memory" fs)
  && negb (nameUsed "initlr" fs)
  && negb (nameUsed "iter" fs)
  && negb (nameUsed "max-count" fs)
  && negb (nameUsed "min-count" fs)
  && negb (nameUsed "sample" fs)
  && negb (nameUsed "rel" fs)
  && negb (nameUsed "smooth" fs)
  && negb (nameUsed "threshold" fs)
  && negb (nameUsed "theta" fs)
  && negb (nameUsed "to-lower" fs)
  && negb (nameUsed "verbose" fs)
  && negb (nameUsed "window" fs) && negb (aliasUsed "w" fs).

(** A command with no flag yet, and [opts] pointing to [o]. *)
Definition newCmd (o : Options.t) : Cmd := {| Flags := []; Opts := o |}.

(** ** Functional options *)

(** [type ModelOption func(opts *Options)]: the pointee after the call, from
    the pointee before it. *)
Definition ModelOption : Type := Options.t -> Options.t.

Definition BatchSize (v : Z) : ModelOption :=
  fun opts => Options.set_BatchSize v opts.

Definition DocInMemory : ModelOption :=
  fun opts => Options.set_DocInMemory true opts.

Definition Goroutines (v : Z) : ModelOption :=
  fun opts => Options.set_Goroutines v opts.

Definition Dim (v : Z) : ModelOption :=
  fun opts => Options.set_Dim v opts.

Definition Initlr (v : float) : ModelOption :=
  fun opts => Options.set_Initlr v opts.

Definition Iter (v : Z) : ModelOption :=
  fun opts => Options.set_Iter v opts.

Definition MaxCount (v : Z) : ModelOption :=
  fun opts => Options.set_MaxCount v opts.

Definition MinCount (v : Z) : ModelOption :=
  fun opts => Options.set_MinCount v opts.

Definition NegativeSampleSize (v : Z) : ModelOption :=
  fun opts => Options.set_NegativeSampleSize v opts.

Definition Relation (typ : RelationType) : ModelOption :=
  fun opts => Options.set_RelationType typ opts.

Definition Smooth (v : float) : ModelOption :=
  fun opts => Options.set_Smooth v opts.

Definition SubsampleThreshold (v : float) : ModelOption :=
  fun opts => Options.set_SubsampleThreshold v opts.

Definition Theta (v : float) : ModelOption :=
  fun opts => Options.set_Theta v opts.

Definition ToLower : ModelOption :=
  fun opts => Options.set_ToLower true opts.

Definition Verbose : ModelOption :=
  fun opts => Options.set_Verbose true opts.

Definition Window (v : Z) : ModelOption :=
  fun opts => Options.set_Window v opts.

(** The option set: one constructor per builder of the package, with the
    argument it is called with. *)
Inductive Builder : Type :=
| B_BatchSize (v : Z)
| B_DocInMemory
| B_Goroutines (v : Z)
| B_Dim (v : Z)
| B_Initlr (v : float)
| B_Iter (v : Z)
| B_MaxCount (v : Z)
| B_MinCount (v : Z)
| B_NegativeSampleSize (v : Z)
| B_Relation (typ : RelationType)
| B_Smooth (v : float)
| B_SubsampleThreshold (v : float)
| B_Theta (v : float)
| B_ToLower
| B_Verbose
| B_Window (v : Z).

(** The [ModelOption] a builder call returns. *)
Definition build (b : Builder) : ModelOption :=
  match b with
  | B_BatchSize v => BatchSize v
  | B_DocInMemory => DocInMemory
  | B_Goroutines v => Goroutines v
  | B_Dim v => Dim v
  | B_Initlr v => Initlr v
  | B_Iter v => Iter v
  | B_MaxCount v => MaxCount v
  | B_MinCount v => MinCount v
  | B_NegativeSampleSize v => NegativeSampleSize v
  | B_Relation typ => Relation typ
  | B_Smooth v => Smooth v
  | B_SubsampleThreshold v => SubsampleThreshold v
  | B_Theta v => Theta v
  | B_ToLower => ToLower
  | B_Verbose => Verbose
  | B_Window v => Window v
  end.

(** The field a builder is for. *)
Definition target (b : Builder) : Field :=
  match b with
  | B_BatchSize _ => FBatchSize
  | B_DocInMemory => FDocInMemory
  | B_Goroutines _ => FGoroutines
  | B_Dim _ => FDim
  | B_Initlr _ => FInitlr
  | B_Iter _ => FIter
  | B_MaxCount _ => FMaxCount
  | B_MinCount _ => FMinCount
  | B_NegativeSampleSize _ => FNegativeSampleSize
  | B_Relation _ => FRelationType
  | B_Smooth _ => FSmooth
  | B_SubsampleThreshold _ => FSubsampleThreshold
  | B_Theta _ => FTheta
  | B_ToLower => FToLower
  | B_Verbose => FVerbose
  | B_Window _ => FWindow
  end.

(** The value a builder is for: its argument, or [true] for the builders
    that take none. *)
Definition written (b : Builder) : Val :=
  match b with
  | B_BatchSize v => VInt v
  | B_DocInMemory => VBool true
  | B_Goroutines v => VInt v
  | B_Dim v => VInt v
  | B_Initlr v => VFloat v
  | B_Iter v => VInt v
  | B_MaxCount v => VInt v
  | B_MinCount v => VInt v
  | B_NegativeSampleSize v => VInt v
  | B_Relation typ => VRel typ
  | B_Smooth v => VFloat v
  | B_SubsampleThreshold v => VFloat v
  | B_Theta v => VFloat v
  | B_ToLower => VBool true
  | B_Verbose => VBool true
  | B_Window v => VInt v
  end.

(** The last builder call of a sequence that is for field [f], if any. *)
Definition lastFor (f : Field) (bs : list Builder) : option Builder :=
  find (fun b => Field_eqb (target b) f) (rev bs).

(** Modelled from the spec: applying an ordered sequence of options to a
    base configuration, each one called in turn on the same record. The
    constructor of the package that runs this loop is not part of this
    file. *)
Definition applyOptions (opts : list ModelOption) (base : Options.t)
    : Options.t :=
  fold_left (fun c fn => fn c) opts base.

(** ** Sequences of calls on one enum *)

(** The test of [Set], on its own: whether a string is one of the four
    tokens. *)
Definition legal (name : string) : bool :=
  String.eqb name PPMI || String.eqb name PMI
  || String.eqb name Collocation || String.eqb name LogCollocation.

(** A call of one of the three methods on a [*RelationType]. *)
Inductive Call : Type :=
| CallString
| CallSet (name : string)
| CallType.

(** The call, with its result dropped. *)
Definition perform (c : Call) : state RelationType unit :=
  match c with
  | CallString => RelationType_String ;; ret tt
  | CallSet name => RelationType_Set name ;; ret tt
  | CallType => RelationType_Type ;; ret tt
  end.

(** The receiver after a sequence of calls on it. *)
Definition performAll (cs : list Call) (t : RelationType) : RelationType :=
  fold_left (fun t c => execState (perform c) t) cs t.

(** The receiver after [Set] was called with each of [names] in turn. *)
Definition setAll (names : list string) (t : RelationType) : RelationType :=
  fold_left (fun t name => execState (RelationType_Set name) t) names t.

(** The long names [LoadForCmd] registers, in the order of its calls. *)
Definition flagNames : list string :=
  ["batch"; "dim"; "goroutines"; "in-memory"; "initlr"; "iter"; "max-count";
   "min-count"; "sample"; "rel"; "smooth"; "threshold"; "theta"; "to-lower";
   "verbose"; "window"].

(** ** Sample inputs *)

(** Two hosts, reporting 4 and 8 CPUs. *)
Definition host4 : Host := {| cpus := 4 |}.
Definition host8 : Host := {| cpus := 8 |}.

(** The field a flag writes to. *)
Definition flagField (fl : Flag) : Field := targetOf (Bound fl).

(** The flags [LoadForCmd] leaves in a command that had none, when [d] is
    what [String] returned for the relation type at registration. *)
Definition boundFlags (g : Vars) (d : string) : list Flag :=
  [ Build_Flag "batch" "" "batch size to train"
      (intValue opts_BatchSize) (VInt (defaultBatchSize g));
    Build_Flag "dim" "d" "dimension for word vector"
      (intValue opts_Dim) (VInt (defaultDim g));
    Build_Flag "goroutines" "" "number of goroutine"
      (intValue opts_Goroutines) (VInt (defaultGoroutines g));
    Build_Flag "in-memory" "" "whether to store the doc in memory"
      (boolValue opts_DocInMemory) (VBool (defaultDocInMemory g));
    Build_Flag "initlr" "" "initial learning rate"
      (float64Value opts_Initlr) (VFloat (defaultInitlr g));
    Build_Flag "iter" "" "number of iteration"
      (intValue opts_Iter) (VInt (defaultIter g));
    Build_Flag "max-count" "" "upper limit to filter words"
      (intValue opts_MaxCount) (VInt (defaultMaxCount g));
    Build_Flag "min-count" "" "lower limit to filter words"
      (intValue opts_MinCount) (VInt (defaultMinCount g));
    Build_Flag "sample" "" "negative sample size"
      (intValue opts_NegativeSampleSize) (VInt (defaultNegativeSampleSize g));
    Build_Flag "rel" ""
      "relation type for co-occurrence words. One of ppmi|pmi|co|logco"
      (customValue opts_RelationType) (VRel d);
    Build_Flag "smooth" "" "smoothing value for co-occurence value"
      (float64Value opts_Smooth) (VFloat (defaultSmooth g));
    Build_Flag "threshold" "" "threshold for subsampling"
      (float64Value opts_SubsampleThreshold)
      (VFloat (defaultSubsampleThreshold g));
    Build_Flag "theta" ""
      "lower limit of learning rate (lr >= initlr * theta)"
      (float64Value opts_Theta) (VFloat (defaultTheta g));
    Build_Flag "to-lower" ""
      "whether the words on corpus convert to lowercase or not"
      (boolValue opts_ToLower) (VBool (defaultToLower g));
    Build_Flag "verbose" "" "verbose mode"
      (boolValue opts_Verbose) (VBool (defaultVerbose g));
    Build_Flag "window" "w" "context window size"
      (intValue opts_Window) (VInt (defaultWindow g)) ].

(** * Properties *)

(** ** The relation type *)

Example String_of_zero_value :
  runState RelationType_String "" = ("ppmi", "ppmi").
Proof. reflexivity. Qed.

Example String_of_set_value :
  runState RelationType_String "logco" = ("logco", "logco").
Proof. reflexivity. Qed.

Example Set_bogus :
  runState (RelationType_Set "bogus") "pmi"
  = (Some (Errorf "invalid relation type: bogus not in ppmi|pmi|co|logco"),
     "pmi").
Proof. reflexivity. Qed.

Example Set_case_variant :
  fst (runState (RelationType_Set "PMI") "co")
  = Some (Errorf "invalid relation type: PMI not in ppmi|pmi|co|logco").
Proof. reflexivity. Qed.

Example Set_empty_string :
  runState (RelationType_Set "") "co"
  = (Some (Errorf "invalid relation type:  not in ppmi|pmi|co|logco"), "co").
Proof. reflexivity. Qed.

(** The test of [Set], as a proposition. *)
Lemma legal_token_spec (s : string) :
  String.eqb s PPMI || String.eqb s PMI
  || String.eqb s Collocation || String.eqb s LogCollocation = true
  <-> In s ["ppmi"; "pmi"; "co"; "logco"].
Proof.
  unfold PPMI, PMI, Collocation, LogCollocation. simpl.
  rewrite !orb_true_iff, !String.eqb_eq. intuition congruence.
Qed.

Lemma Set_legal (s : string) (v : RelationType) :
  In s ["ppmi"; "pmi"; "co"; "logco"] ->
  runState (RelationType_Set s) v = (None, s).
Proof.
  intros H. apply legal_token_spec in H.
  unfold RelationType_Set. rewrite H. reflexivity.
Qed.

Lemma Set_illegal (s : string) (v : RelationType) :
  ~ In s ["ppmi"; "pmi"; "co"; "logco"] ->
  runState (RelationType_Set s) v = (Some (invalidRelationTypeError s), v).
Proof.
  intros H. unfold RelationType_Set.
  destruct (String.eqb s PPMI || String.eqb s PMI
            || String.eqb s Collocation || String.eqb s LogCollocation) eqn:E.
  - apply legal_token_spec in E. contradiction.
  - reflexivity.
Qed.

Lemma String_nonempty (t : RelationType) :
  t <> "" -> runState RelationType_String t = (t, t).
Proof.
  intros H. unfold RelationType_String. cbn.
  destruct (String.eqb_spec t ""); [contradiction | reflexivity].
Qed.

Lemma legal_nonempty (t : string) :
  In t ["ppmi"; "pmi"; "co"; "logco"] -> t <> "".
Proof. simpl. intros [<- | [<- | [<- | [<- | []]]]]; discriminate. Qed.

(** C2: for every string [s] outside ppmi, pmi, co and logco and every
    prior value [v] of the enum, [Set s] returns the invalid-relation-type
    error, whose message names [s] and lists the legal tokens as
    ppmi|pmi|co|logco, and the enum still holds [v]; for every string among
    the four, [Set] returns no error. *)
Theorem Set_rejects_exactly_the_other_strings (s : string) (v : RelationType) :
  (~ In s ["ppmi"; "pmi"; "co"; "logco"] ->
   runState (RelationType_Set s) v
   = (Some (Errorf ("invalid relation type: " ++ s
                    ++ " not in ppmi|pmi|co|logco")), v))
  /\ (In s ["ppmi"; "pmi"; "co"; "logco"] ->
      runState (RelationType_Set s) v = (None, s)).
Proof.
  split; intros H.
  - rewrite (Set_illegal s v H). reflexivity.
  - exact (Set_legal s v H).
Qed.

Lemma Set_rejects_exactly_the_other_strings_witness :
  runState (RelationType_Set "Ppmi") "logco"
  = (Some (Errorf "invalid relation type: Ppmi not in ppmi|pmi|co|logco"),
     "logco")
  /\ runState (RelationType_Set "co") "logco" = (None, "co").
Proof.
  split.
  - apply (proj1 (Set_rejects_exactly_the_other_strings "Ppmi" "logco")).
    simpl. intros [H | [H | [H | [H | []]]]]; discriminate H.
  - apply (proj2 (Set_rejects_exactly_the_other_strings "co" "logco")).
    simpl. tauto.
Defined.

(** C3: for each of the four legal tokens [t], [Set t] succeeds and a
    [String] on the same enum then returns exactly [t]; and parsing what
    [String] renders of an enum holding [t] gives back [t]. *)
Theorem Set_String_round_trip (t : string) (v : RelationType) :
  In t ["ppmi"; "pmi"; "co"; "logco"] ->
  runState (e <- RelationType_Set t ;; s <- RelationType_String ;; ret (e, s)) v
  = ((None, t), t)
  /\ runState (s <- RelationType_String ;; RelationType_Set s) t = (None, t).
Proof.
  intros H.
  pose proof (Set_legal t v H) as HS.
  pose proof (Set_legal t t H) as HS'.
  pose proof (String_nonempty t (legal_nonempty t H)) as HT.
  split; cbn in *.
  - rewrite HS. cbn. rewrite HT. reflexivity.
  - rewrite HT. cbn. exact HS'.
Qed.

Lemma Set_String_round_trip_witness :
  runState (e <- RelationType_Set "logco" ;; s <- RelationType_String ;;
            ret (e, s)) ""
  = ((None, "logco"), "logco")
  /\ runState (s <- RelationType_String ;; RelationType_Set s) "logco"
     = (None, "logco").
Proof.
  apply (Set_String_round_trip "logco" ""). simpl. tauto.
Defined.

(** C4: [String] on an enum holding the empty string returns ppmi and
    leaves the enum holding ppmi, the state [Set "ppmi"] leaves it in
    whatever it held: anything run afterwards behaves as after that [Set]. *)
Theorem String_defaults_the_zero_value :
  runState RelationType_String "" = ("ppmi", "ppmi")
  /\ (forall v : RelationType,
        execState RelationType_String "" = execState (RelationType_Set "ppmi") v)
  /\ (forall (A : Type) (k : state RelationType A) (v : RelationType),
        runState (RelationType_String ;; k) ""
        = runState (RelationType_Set "ppmi" ;; k) v).
Proof. repeat split. Qed.

(** C10: [Type] is [String]: on every receiver it returns the same string
    and leaves the same value behind, so on the zero value it returns ppmi
    and stores ppmi. *)
Theorem Type_is_String :
  (forall t : RelationType,
     runState RelationType_Type t = runState RelationType_String t)
  /\ runState RelationType_Type "" = ("ppmi", "ppmi").
Proof. split; [intros t |]; reflexivity. Qed.

(** ** Defaults *)

Example DefaultOptions_on_host4 :
  DefaultOptions (initVars host4)
  = Options.mk 100000 10 false 4 0.025%float 15 (-1) 5 5 "ppmi"
      0.75%float 1.0e-3%float 1.0e-4%float false false 5.
Proof. reflexivity. Qed.

(** The package variables of a running program are those package
    initialisation computed. *)
Lemma running_vars (h0 : Host) (w : World) :
  running h0 w -> vars w = initVars h0.
Proof.
  induction 1 as [| w h' _ IH]; [reflexivity | exact IH].
Qed.


Example NumCPU_after_rehost :
  NumCPU (rehost host8 (load host4)) = 4.
Proof. reflexivity. Qed.



(** Every call of one program returns the same options. *)
Lemma DefaultOptions_same_at_every_call (h0 : Host) (w w' : World) :
  running h0 w -> running h0 w' ->
  DefaultOptions (vars w) = DefaultOptions (vars w').
Proof.
  intros Hw Hw'.
  now rewrite (running_vars h0 w Hw), (running_vars h0 w' Hw').
Qed.

(** ** Functional options *)

(** A configuration is determined by the values of its sixteen fields. *)
Lemma fieldValue_ext (c c' : Options.t) :
  (forall f : Field, fieldValue f c = fieldValue f c') -> c = c'.
Proof.
  intros H. destruct c, c'.
  pose proof (H FBatchSize) as H1. pose proof (H FDim) as H2.
  pose proof (H FDocInMemory) as H3. pose proof (H FGoroutines) as H4.
  pose proof (H FInitlr) as H5. pose proof (H FIter) as H6.
  pose proof (H FMaxCount) as H7. pose proof (H FMinCount) as H8.
  pose proof (H FNegativeSampleSize) as H9.
  pose proof (H FRelationType) as H10. pose proof (H FSmooth) as H11.
  pose proof (H FSubsampleThreshold) as H12. pose proof (H FTheta) as H13.
  pose proof (H FToLower) as H14. pose proof (H FVerbose) as H15.
  pose proof (H FWindow) as H16.
  simpl in *. clear H.
  injection H1 as ->. injection H2 as ->. injection H3 as ->.
  injection H4 as ->. injection H5 as ->. injection H6 as ->.
  injection H7 as ->. injection H8 as ->. injection H9 as ->.
  injection H10 as ->. injection H11 as ->. injection H12 as ->.
  injection H13 as ->. injection H14 as ->. injection H15 as ->.
  injection H16 as ->. reflexivity.
Qed.

(** A builder stores the value it is for in the field it is for. *)
Lemma build_writes_target (b : Builder) (c : Options.t) :
  fieldValue (target b) (build b c) = written b.
Proof. destruct b; reflexivity. Qed.

(** A builder leaves the other fields alone. *)
Lemma build_frame (b : Builder) (c : Options.t) (f : Field) :
  f <> target b -> fieldValue f (build b c) = fieldValue f c.
Proof.
  intros H. destruct b, f; try reflexivity; contradiction H; reflexivity.
Qed.

Lemma Field_eqb_eq (f f' : Field) : Field_eqb f f' = true <-> f = f'.
Proof.
  unfold Field_eqb. destruct (Field_eq_dec f f'); split; congruence.
Qed.

Lemma applyOptions_app (os1 os2 : list ModelOption) (c : Options.t) :
  applyOptions (os1 ++ os2) c = applyOptions os2 (applyOptions os1 c).
Proof. unfold applyOptions. apply fold_left_app. Qed.

Lemma lastFor_snoc (f : Field) (bs : list Builder) (b : Builder) :
  lastFor f (bs ++ [b])
  = if Field_eqb (target b) f then Some b else lastFor f bs.
Proof. unfold lastFor. rewrite rev_app_distr. reflexivity. Qed.

(** After a sequence of builder calls, a field holds what the last call
    for it wrote, or what the base held when no call was for it. *)
Lemma applyOptions_last_write_wins (bs : list Builder) (c : Options.t)
    (f : Field) :
  fieldValue f (applyOptions (map build bs) c)
  = match lastFor f bs with
    | Some b => written b
    | None => fieldValue f c
    end.
Proof.
  induction bs as [| b bs IH] using rev_ind; [reflexivity |].
  rewrite map_app, applyOptions_app, lastFor_snoc. simpl.
  destruct (Field_eqb (target b) f) eqn:E.
  - apply Field_eqb_eq in E. subst f. apply build_writes_target.
  - rewrite build_frame; [exact IH |].
    intros ->. rewrite (proj2 (Field_eqb_eq _ _) eq_refl) in E. discriminate.
Qed.

Example Dim_twice_on_host4 :
  applyOptions [Dim 50; Dim 100] (DefaultOptions (initVars host4))
  = Options.set_Dim 100 (DefaultOptions (initVars host4)).
Proof. reflexivity. Qed.

(** C5: applying a sequence of options to a base configuration performs
    the options' mutations one after the other, in the order of the
    sequence; after a sequence of builder calls every field holds what the
    last call for that field wrote, and the base's value when there is no
    such call; [Dim 50] then [Dim 100] on the defaults leaves the dimension
    at 100. *)
Theorem options_apply_in_order_last_write_wins (g : Vars) (c : Options.t) :
  applyOptions [] c = c
  /\ (forall (o : ModelOption) (os : list ModelOption),
        applyOptions (o :: os) c = applyOptions os (o c))
  /\ (forall os1 os2 : list ModelOption,
        applyOptions (os1 ++ os2) c = applyOptions os2 (applyOptions os1 c))
  /\ (forall (bs : list Builder) (f : Field),
        fieldValue f (applyOptions (map build bs) c)
        = match lastFor f bs with
          | Some b => written b
          | None => fieldValue f c
          end)
  /\ Options.Dim (applyOptions [Dim 50; Dim 100] (DefaultOptions g)) = 100.
Proof.
  repeat split.
  - intros os1 os2. apply applyOptions_app.
  - intros bs f. apply applyOptions_last_write_wins.
Qed.

(** C6: applying one builder call to a configuration changes at most the
    field the builder is for: every other field reads as before. *)
Theorem builder_changes_only_its_field (b : Builder) (c : Options.t)
    (f : Field) :
  f <> target b -> fieldValue f (build b c) = fieldValue f c.
Proof. apply build_frame. Qed.

Lemma builder_changes_only_its_field_witness :
  fieldValue FDim (build (B_Window 7) (DefaultOptions (initVars host4)))
  = fieldValue FDim (DefaultOptions (initVars host4)).
Proof.
  apply (builder_changes_only_its_field (B_Window 7)
           (DefaultOptions (initVars host4)) FDim).
  simpl. discriminate.
Defined.

(** C7: [DocInMemory], [ToLower] and [Verbose] take no argument and set
    their field to true on every configuration; after any builder call each
    of the three fields is true when it was true before or when the call is
    the builder for it, so no builder call turns one of them to false. *)
Theorem enable_only_builders (b : Builder) (c : Options.t) :
  Options.DocInMemory (DocInMemory c) = true
  /\ Options.ToLower (ToLower c) = true
  /\ Options.Verbose (Verbose c) = true
  /\ Options.DocInMemory (build b c)
     = Options.DocInMemory c || Field_eqb (target b) FDocInMemory
  /\ Options.ToLower (build b c)
     = Options.ToLower c || Field_eqb (target b) FToLower
  /\ Options.Verbose (build b c)
     = Options.Verbose c || Field_eqb (target b) FVerbose.
Proof.
  repeat split; destruct b; simpl;
    rewrite ?orb_false_r, ?orb_true_r; reflexivity.
Qed.

Example ToLower_on_defaults :
  Options.ToLower (ToLower (DefaultOptions (initVars host4))) = true.
Proof. reflexivity. Qed.

(** C8: no builder checks its argument: each one stores the value it is
    given as it is, a negative dimension included, and [Relation] stores a
    relation type that [Set] rejects. *)
Theorem builders_store_their_argument_unchecked (c : Options.t) :
  (forall v : Z, Options.BatchSize (BatchSize v c) = v)
  /\ (forall v : Z, Options.Goroutines (Goroutines v c) = v)
  /\ (forall v : Z, Options.Dim (Dim v c) = v)
  /\ (forall v : float, Options.Initlr (Initlr v c) = v)
  /\ (forall v : Z, Options.Iter (Iter v c) = v)
  /\ (forall v : Z, Options.MaxCount (MaxCount v c) = v)
  /\ (forall v : Z, Options.MinCount (MinCount v c) = v)
  /\ (forall v : Z, Options.NegativeSampleSize (NegativeSampleSize v c) = v)
  /\ (forall typ : RelationType, Options.RelationType (Relation typ c) = typ)
  /\ (forall v : float, Options.Smooth (Smooth v c) = v)
  /\ (forall v : float, Options.SubsampleThreshold (SubsampleThreshold v c) = v)
  /\ (forall v : float, Options.Theta (Theta v c) = v)
  /\ (forall v : Z, Options.Window (Window v c) = v)
  /\ Options.Dim (Dim (-3) c) = -3
  /\ Options.RelationType (Relation "bogus" c) = "bogus"
  /\ fst (runState (RelationType_Set "bogus") (Options.RelationType c))
     = Some (invalidRelationTypeError "bogus").
Proof. repeat split. Qed.

(** ** Binding the options to a command *)

(** Reading and writing through a field pointer. *)
Lemma deref_assign {A : Type} (p : Ptr A) (v : A) (o : Options.t) :
  deref p (assign p v o) = v.
Proof. destruct p; reflexivity. Qed.

Lemma assign_assign {A : Type} (p : Ptr A) (v v' : A) (o : Options.t) :
  assign p v' (assign p v o) = assign p v' o.
Proof. destruct p; reflexivity. Qed.

(** One call after the other: a panic of the first is a panic of both. *)
Lemma bind_run {A B : Type} (m : reg A) (k : A -> reg B) (c : Cmd) :
  runStateT (x <- m ;; k x) c
  = match runStateT m c with
    | Some (x, c') => runStateT (k x) c'
    | None => None
    end.
Proof. cbn. destruct (runStateT m c) as [[x c'] |]; reflexivity. Qed.

Lemma AddFlag_run (flag : Flag) (c : Cmd) :
  runStateT (AddFlag flag) c
  = if nameUsed (Name flag) (Flags c) then None
    else if (1 <? String.length (Shorthand flag))%nat then None
    else if negb (String.eqb (Shorthand flag) "")
            && aliasUsed (Shorthand flag) (Flags c)
    then None
    else Some (tt, {| Flags := Flags c ++ [flag]; Opts := Opts c |}).
Proof.
  unfold AddFlag. cbn -[Nat.ltb nameUsed aliasUsed String.eqb].
  destruct (nameUsed _ _); [reflexivity |].
  destruct (Nat.ltb _ _); [reflexivity |].
  destruct (negb _ && _); reflexivity.
Qed.

(** A typed registration stores the default in the field and registers a
    flag that shows it. *)
Lemma IntVarP_run (p : Ptr Z) (name shorthand : string) (value : Z)
    (usage : string) (c : Cmd) :
  runStateT (IntVarP p name shorthand value usage) c
  = runStateT
      (AddFlag (Build_Flag name shorthand usage (intValue p) (VInt value)))
      {| Flags := Flags c; Opts := assign p value (Opts c) |}.
Proof.
  unfold IntVarP, VarP, Value_String, onField. cbn.
  rewrite !deref_assign, !assign_assign. reflexivity.
Qed.

Lemma IntVar_run (p : Ptr Z) (name : string) (value : Z) (usage : string)
    (c : Cmd) :
  runStateT (IntVar p name value usage) c
  = runStateT (AddFlag (Build_Flag name "" usage (intValue p) (VInt value)))
      {| Flags := Flags c; Opts := assign p value (Opts c) |}.
Proof. unfold IntVar. rewrite IntVarP_run. reflexivity. Qed.

Lemma BoolVar_run (p : Ptr bool) (name : string) (value : bool)
    (usage : string) (c : Cmd) :
  runStateT (BoolVar p name value usage) c
  = runStateT (AddFlag (Build_Flag name "" usage (boolValue p) (VBool value)))
      {| Flags := Flags c; Opts := assign p value (Opts c) |}.
Proof.
  unfold BoolVar, VarP, Value_String, onField. cbn.
  rewrite !deref_assign, !assign_assign. reflexivity.
Qed.

Lemma Float64Var_run (p : Ptr float) (name : string) (value : float)
    (usage : string) (c : Cmd) :
  runStateT (Float64Var p name value usage) c
  = runStateT
      (AddFlag (Build_Flag name "" usage (float64Value p) (VFloat value)))
      {| Flags := Flags c; Opts := assign p value (Opts c) |}.
Proof.
  unfold Float64Var, VarP, Value_String, onField. cbn.
  rewrite !deref_assign, !assign_assign. reflexivity.
Qed.

(** Registering the enum stores nothing but what [String] does to it, and
    the flag shows what [String] returned. *)
Lemma Var_custom_run (p : Ptr RelationType) (name usage : string) (c : Cmd) :
  runStateT (Var (customValue p) name usage) c
  = runStateT
      (AddFlag (Build_Flag name "" usage (customValue p)
                  (VRel (evalState RelationType_String (deref p (Opts c))))))
      {| Flags := Flags c;
         Opts := assign p (execState RelationType_String (deref p (Opts c)))
                   (Opts c) |}.
Proof.
  unfold Var, VarP, Value_String, onField, evalState, execState.
  cbn -[RelationType_String AddFlag].
  destruct (runState RelationType_String (deref p (Opts c))) as [s t'].
  reflexivity.
Qed.

(** Runs the registration at the head of the goal; a name or an alias that
    is taken ends both sides in a panic. *)
Ltac reg_call :=
  first [rewrite IntVar_run | rewrite IntVarP_run | rewrite BoolVar_run
        | rewrite Float64Var_run | rewrite Var_custom_run];
  rewrite AddFlag_run;
  cbn [Name Shorthand Flags Opts];
  unfold nameUsed, aliasUsed; rewrite ?existsb_app;
  cbn [existsb Name Shorthand String.eqb Ascii.eqb Bool.eqb orb andb negb
       String.length Nat.ltb Nat.leb];
  rewrite ?orb_false_r;
  repeat match goal with
         | |- context [existsb ?f ?fs] =>
             is_var fs; destruct (existsb f fs); [reflexivity |]
         end;
  cbn [negb andb].

(** [LoadForCmd] panics when one of its names or aliases is taken in the
    command; otherwise it appends its sixteen flags and leaves in [opts] the
    defaults of the package variables, except for the relation type, which
    only [String] touched. *)
Lemma LoadForCmd_run (g : Vars) (c : Cmd) :
  runStateT (LoadForCmd g) c
  = if usable (Flags c)
    then Some (tt,
               {| Flags := Flags c
                           ++ boundFlags g
                                (evalState RelationType_String
                                   (Options.RelationType (Opts c)));
                  Opts := Options.set_RelationType
                            (execState RelationType_String
                               (Options.RelationType (Opts c)))
                            (DefaultOptions g) |})
    else None.
Proof.
  destruct c as [fs o]. unfold LoadForCmd, usable, nameUsed, aliasUsed.
  cbn [Flags Opts].
  do 15 (rewrite bind_run; reg_call).
  reg_call.
  rewrite <- !app_assoc. destruct o. reflexivity.
Qed.

Lemma String_result (t : RelationType) :
  evalState RelationType_String t = if String.eqb t "" then "ppmi" else t.
Proof. destruct t; reflexivity. Qed.

Example LoadForCmd_on_zero_value :
  option_map (fun r => Opts (snd r))
    (runStateT (LoadForCmd (initVars host4)) (newCmd Options.zero))
  = Some (DefaultOptions (initVars host4)).
Proof. reflexivity. Qed.

Example LoadForCmd_rel_default_of_pmi :
  option_map (fun r => map DefValue
                         (filter (fun fl => String.eqb (Name fl) "rel")
                                 (Flags (snd r))))
    (runStateT (LoadForCmd (initVars host4))
       (newCmd (Relation PMI (DefaultOptions (initVars host4)))))
  = Some [VRel "pmi"].
Proof. reflexivity. Qed.

(** C9, as the code has it: [LoadForCmd] panics only when the command
    already has a flag of one of its names or aliases; otherwise it
    registers exactly one flag per field of the configuration, each name
    bound to the field the source binds it to; only the flag of the
    dimension, dim, and the flag of the window size, window, have a short
    alias, d and w respectively; every flag but rel is
    registered with the value [DefaultOptions] gives its field; rel is
    registered without a default of its own and shows what [String] returns
    for the relation type [opts] holds at that time, which is the value of
    [DefaultOptions] when that relation type is empty or ppmi. *)
Theorem LoadForCmd_registers_one_flag_per_field (g : Vars) (c : Cmd) :
  exists (fs : list Flag) (o' : Options.t),
    runStateT (LoadForCmd g) c
    = (if usable (Flags c)
       then Some (tt, {| Flags := Flags c ++ fs; Opts := o' |})
       else None)
    /\ (forall f : Field,
          count_occ Field_eq_dec (map flagField fs) f = 1%nat)
    /\ map (fun fl => (Name fl, flagField fl)) fs
       = [("batch", FBatchSize); ("dim", FDim); ("goroutines", FGoroutines);
          ("in-memory", FDocInMemory); ("initlr", FInitlr); ("iter", FIter);
          ("max-count", FMaxCount); ("min-count", FMinCount);
          ("sample", FNegativeSampleSize); ("rel", FRelationType);
          ("smooth", FSmooth); ("threshold", FSubsampleThreshold);
          ("theta", FTheta); ("to-lower", FToLower); ("verbose", FVerbose);
          ("window", FWindow)]
    /\ map (fun fl => (flagField fl, Name fl, Shorthand fl))
         (filter (fun fl => negb (String.eqb (Shorthand fl) "")) fs)
       = [(FDim, "dim", "d"); (FWindow, "window", "w")]
    /\ Forall (fun fl =>
                 DefValue fl
                 = if Field_eqb (flagField fl) FRelationType
                   then VRel (evalState RelationType_String
                                (Options.RelationType (Opts c)))
                   else fieldValue (flagField fl) (DefaultOptions g)) fs
    /\ (Options.RelationType (Opts c) = ""
        \/ Options.RelationType (Opts c) = "ppmi" ->
        Forall (fun fl =>
                  DefValue fl = fieldValue (flagField fl) (DefaultOptions g))
               fs).
Proof.
  eexists. eexists. split; [apply LoadForCmd_run |].
  split; [intros f; destruct f; reflexivity |].
  split; [reflexivity |].
  split; [reflexivity |].
  split.
  - repeat constructor.
  - intros H.
    assert (evalState RelationType_String (Options.RelationType (Opts c))
            = "ppmi") as -> by (destruct H as [-> | ->]; reflexivity).
    repeat constructor.
Qed.

Lemma LoadForCmd_registers_one_flag_per_field_witness :
  exists (fs : list Flag) (o' : Options.t),
    runStateT (LoadForCmd (initVars host4)) (newCmd Options.zero)
    = Some (tt, {| Flags := fs; Opts := o' |})
    /\ length fs = 16%nat
    /\ Forall (fun fl =>
                 DefValue fl
                 = fieldValue (flagField fl) (DefaultOptions (initVars host4)))
              fs.
Proof.
  destruct (LoadForCmd_registers_one_flag_per_field
              (initVars host4) (newCmd Options.zero))
    as (fs & o' & Hrun & _ & _ & _ & _ & Hdef).
  exists fs, o'. split; [exact Hrun |]. split.
  - vm_compute in Hrun. injection Hrun as <- _. reflexivity.
  - apply Hdef. left. reflexivity.
Defined.

(** C9, as stated, fails: when [opts] already holds pmi, the flag rel is
    registered with pmi, and [DefaultOptions] gives the field ppmi. *)
Lemma LoadForCmd_rel_default_is_the_current_value :
  ~ (forall (g : Vars) (o : Options.t) (fs : list Flag) (o' : Options.t),
       runStateT (LoadForCmd g) (newCmd o)
       = Some (tt, {| Flags := fs; Opts := o' |}) ->
       Forall (fun fl =>
                 DefValue fl = fieldValue (flagField fl) (DefaultOptions g))
              fs).
Proof.
  intros H.
  specialize (H (initVars host4) (Relation PMI (DefaultOptions (initVars host4)))
                _ _ (LoadForCmd_run _ (newCmd _))).
  rewrite Forall_forall in H.
  specialize (H (Build_Flag "rel" ""
                   "relation type for co-occurrence words. One of ppmi|pmi|co|logco"
                   (customValue opts_RelationType) (VRel "pmi"))).
  simpl in H.
  assert (VRel "pmi" = VRel "ppmi") as E by (apply H; tauto).
  discriminate E.
Qed.

(** * Further properties of the package *)

(** ** The relation type *)

Lemma legal_In (s : string) :
  legal s = true <-> In s ["ppmi"; "pmi"; "co"; "logco"].
Proof. apply legal_token_spec. Qed.

Lemma Set_run (name : string) (t : RelationType) :
  runState (RelationType_Set name) t
  = if legal name then (None, name)
    else (Some (invalidRelationTypeError name), t).
Proof.
  unfold RelationType_Set, legal.
  destruct (String.eqb name PPMI || String.eqb name PMI
            || String.eqb name Collocation || String.eqb name LogCollocation);
    reflexivity.
Qed.

Lemma String_run (t : RelationType) :
  runState RelationType_String t
  = if String.eqb t "" then ("ppmi", "ppmi") else (t, t).
Proof. destruct t; reflexivity. Qed.

Lemma legal_not_empty (t : string) : legal t = true -> t <> "".
Proof. intros H ->. discriminate H. Qed.

(** What a call leaves in the receiver. *)
Lemma perform_exec (c : Call) (t : RelationType) :
  execState (perform c) t
  = match c with
    | CallSet name => execState (RelationType_Set name) t
    | _ => execState RelationType_String t
    end.
Proof.
  destruct c as [| name |]; unfold execState, perform, RelationType_Type;
    cbn -[RelationType_String RelationType_Set].
  - destruct (runState RelationType_String t); reflexivity.
  - destruct (runState (RelationType_Set name) t); reflexivity.
  - destruct (runState RelationType_String t); reflexivity.
Qed.

(** X1: [String] never returns the empty string; what it returns is what
    the receiver holds afterwards, and a second call returns the same
    string and changes nothing. *)
Theorem String_is_idempotent_and_never_empty (t : RelationType) :
  evalState RelationType_String t <> ""
  /\ execState RelationType_String t = evalState RelationType_String t
  /\ runState RelationType_String (execState RelationType_String t)
     = (evalState RelationType_String t, evalState RelationType_String t).
Proof.
  unfold evalState, execState. rewrite String_run.
  destruct (String.eqb_spec t "") as [-> | Hne]; cbn [fst snd].
  - repeat split. discriminate.
  - repeat split; [exact Hne |].
    rewrite String_run. destruct (String.eqb_spec t ""); [contradiction |].
    reflexivity.
Qed.

(** X2: an enum that holds the zero value or a legal token holds, after
    any sequence of [String], [Set] and [Type] calls with any arguments,
    a legal token, unless it is still the zero value it started from: no
    call stores an illegal token and none brings the zero value back. *)
Theorem calls_keep_the_enum_legal (cs : list Call) (t : RelationType) :
  t = "" \/ legal t = true ->
  (t = "" /\ performAll cs t = "") \/ legal (performAll cs t) = true.
Proof.
  revert t. induction cs as [| c cs IH]; intros t Ht.
  - destruct Ht as [-> | Ht]; [left; split; reflexivity | right; exact Ht].
  - assert (execState (perform c) t = t
            \/ legal (execState (perform c) t) = true) as Hstep.
    { rewrite perform_exec. unfold execState.
      destruct c as [| name |].
      - rewrite String_run.
        destruct (String.eqb_spec t "") as [-> | Hne]; cbn [snd];
          [right; reflexivity | left; reflexivity].
      - rewrite Set_run.
        destruct (legal name) eqn:E; cbn [snd];
          [right; exact E | left; reflexivity].
      - rewrite String_run.
        destruct (String.eqb_spec t "") as [-> | Hne]; cbn [snd];
          [right; reflexivity | left; reflexivity]. }
    change (performAll (c :: cs) t)
      with (performAll cs (execState (perform c) t)).
    destruct Hstep as [-> | Hstep].
    + exact (IH t Ht).
    + right. destruct (IH _ (or_intror Hstep)) as [[He _] | Hl];
        [| exact Hl].
      rewrite He in Hstep. discriminate Hstep.
Qed.

Lemma calls_keep_the_enum_legal_witness :
  ("" = "" /\ performAll [CallSet "PMI"; CallType; CallSet "co"; CallSet ""] ""
             = "")
  \/ legal (performAll [CallSet "PMI"; CallType; CallSet "co"; CallSet ""] "")
     = true.
Proof.
  apply (calls_keep_the_enum_legal
           [CallSet "PMI"; CallType; CallSet "co"; CallSet ""] "").
  left. reflexivity.
Defined.

Lemma setAll_snoc (names : list string) (name : string) (t : RelationType) :
  setAll (names ++ [name]) t
  = if legal name then name else setAll names t.
Proof.
  unfold setAll. rewrite fold_left_app. cbn [fold_left].
  unfold execState. rewrite Set_run.
  destruct (legal name); reflexivity.
Qed.

(** X3: after [Set] was called with each string of a sequence in turn,
    errors ignored, the enum holds the last legal token of the sequence,
    and its initial value when the sequence has none: a rejected string
    never undoes an earlier accepted one. *)
Theorem Set_last_legal_token_wins (names : list string) (t : RelationType) :
  setAll names t
  = match find legal (rev names) with
    | Some name => name
    | None => t
    end.
Proof.
  induction names as [| name names IH] using rev_ind; [reflexivity |].
  rewrite setAll_snoc, rev_app_distr. cbn [rev app find].
  destruct (legal name); [reflexivity | exact IH].
Qed.

Example setAll_sample :
  setAll ["pmi"; "bogus"; "co"; "CO"; ""] "ppmi" = "co".
Proof. reflexivity. Qed.

Lemma length_append (s x : string) :
  String.length (s ++ x) = (String.length s + String.length x)%nat.
Proof. induction s as [| a s IH]; cbn; [reflexivity | now rewrite IH]. Qed.

Lemma append_inv_tail (s s' x : string) : s ++ x = s' ++ x -> s = s'.
Proof.
  revert s'. induction s as [| a s IH]; intros [| a' s'] H; cbn in H.
  - reflexivity.
  - apply (f_equal String.length) in H. cbn in H.
    rewrite length_append in H. lia.
  - apply (f_equal String.length) in H. cbn in H.
    rewrite length_append in H. lia.
  - injection H as -> H. now rewrite (IH s' H).
Qed.

(** X4: the error of [Set] tells the rejected strings apart: different
    strings get errors with different messages. *)
Theorem invalidRelationTypeError_names_one_token (typ typ' : RelationType) :
  typ <> typ' ->
  Error (invalidRelationTypeError typ) <> Error (invalidRelationTypeError typ').
Proof.
  unfold invalidRelationTypeError, Error. intros Hne H. apply Hne.
  cbn [append] in H.
  repeat match type of H with
         | String ?a _ = String ?a _ => injection H as H
         end.
  exact (append_inv_tail _ _ _ H).
Qed.

Lemma invalidRelationTypeError_names_one_token_witness :
  Error (invalidRelationTypeError "Pmi") <> Error (invalidRelationTypeError "PMI").
Proof.
  apply (invalidRelationTypeError_names_one_token "Pmi" "PMI").
  discriminate.
Defined.

(** X5: parsing what [String] renders succeeds exactly when the enum held
    the zero value or a legal token; an enum that was given any other
    string (a conversion or the [Relation] builder can do that) renders a
    string that [Set] rejects. *)
Theorem Set_accepts_what_String_renders (t : RelationType) :
  fst (runState (s <- RelationType_String ;; RelationType_Set s) t) = None
  <-> t = "" \/ legal t = true.
Proof.
  assert (runState (s <- RelationType_String ;; RelationType_Set s) t
          = runState (RelationType_Set (evalState RelationType_String t))
              (execState RelationType_String t)) as ->.
  { unfold evalState, execState. cbn -[RelationType_String RelationType_Set].
    destruct (runState RelationType_String t); reflexivity. }
  unfold evalState, execState. rewrite String_run, Set_run.
  destruct (String.eqb_spec t "") as [-> | Hne]; cbn [fst snd].
  - split; [left; reflexivity | reflexivity].
  - destruct (legal t) eqn:E; cbn [fst]; split; intros H.
    + right. reflexivity.
    + reflexivity.
    + discriminate H.
    + destruct H as [H | H]; [contradiction | discriminate H].
Qed.

(** ** Defaults and functional options *)

(** X6: the defaults do not depend on the host apart from [Goroutines]:
    the defaults of a program loaded on one host are those of a program
    loaded on any other host with [Goroutines] set to the CPU count of the
    first. *)
Theorem DefaultOptions_differ_only_in_Goroutines (h h' : Host) :
  DefaultOptions (initVars h)
  = Goroutines (runtime_NumCPU h) (DefaultOptions (initVars h')).
Proof. reflexivity. Qed.

(** X7: two builder calls for different fields commute: the order in which
    they are applied does not matter. *)
Theorem builders_for_different_fields_commute (b1 b2 : Builder)
    (c : Options.t) :
  target b1 <> target b2 ->
  build b1 (build b2 c) = build b2 (build b1 c).
Proof.
  intros H. apply fieldValue_ext. intros f.
  destruct (Field_eq_dec f (target b1)) as [-> | H1].
  - rewrite build_writes_target, (build_frame b2 _ _ H).
    now rewrite build_writes_target.
  - rewrite (build_frame b1 _ _ H1).
    destruct (Field_eq_dec f (target b2)) as [-> | H2].
    + now rewrite !build_writes_target.
    + now rewrite !(build_frame b2 _ _ H2), (build_frame b1 _ _ H1).
Qed.

Lemma builders_for_different_fields_commute_witness :
  build (B_Dim 50) (build B_Verbose Options.zero)
  = build B_Verbose (build (B_Dim 50) Options.zero).
Proof.
  apply (builders_for_different_fields_commute (B_Dim 50) B_Verbose
           Options.zero).
  simpl. discriminate.
Defined.

(** X8: a builder call overwrites an earlier call for the same field
    completely: the result is as if the earlier call had not been made. *)
Theorem later_builder_overwrites_earlier (b1 b2 : Builder) (c : Options.t) :
  target b1 = target b2 ->
  build b2 (build b1 c) = build b2 c.
Proof.
  intros H. apply fieldValue_ext. intros f.
  destruct (Field_eq_dec f (target b2)) as [-> | H2].
  - now rewrite !build_writes_target.
  - rewrite !(build_frame b2 _ _ H2). apply build_frame. now rewrite H.
Qed.

Lemma later_builder_overwrites_earlier_witness :
  build (B_Relation "co") (build (B_Relation "bogus") Options.zero)
  = build (B_Relation "co") Options.zero.
Proof.
  apply (later_builder_overwrites_earlier (B_Relation "bogus")
           (B_Relation "co") Options.zero).
  reflexivity.
Defined.

(** X9: a builder call leaves a configuration as it is exactly when its
    field already holds the value the call writes. *)
Theorem builder_is_a_no_op_iff_value_present (b : Builder) (c : Options.t) :
  build b c = c <-> fieldValue (target b) c = written b.
Proof.
  split; intros H.
  - rewrite <- H at 1. apply build_writes_target.
  - apply fieldValue_ext. intros f.
    destruct (Field_eq_dec f (target b)) as [-> | Hf].
    + now rewrite build_writes_target.
    + now apply build_frame.
Qed.

(** ** Binding the options to a command *)

Lemma nameUsed_true (name : string) (fs : list Flag) :
  nameUsed name fs = true <-> exists fl, In fl fs /\ Name fl = name.
Proof.
  unfold nameUsed. rewrite existsb_exists.
  split; intros (fl & Hin & H); exists fl; split; trivial;
    now apply String.eqb_eq.
Qed.

Lemma aliasUsed_true (shorthand : string) (fs : list Flag) :
  aliasUsed shorthand fs = true
  <-> exists fl, In fl fs /\ Shorthand fl = shorthand.
Proof.
  unfold aliasUsed. rewrite existsb_exists.
  split; intros (fl & Hin & H); exists fl; split; trivial;
    now apply String.eqb_eq.
Qed.

(** A flag set is unusable for [LoadForCmd] exactly when one of its flags
    has one of the sixteen names or one of the two aliases. *)
Lemma usable_false (fs : list Flag) :
  usable fs = false
  <-> exists fl, In fl fs
                 /\ (In (Name fl) flagNames
                     \/ Shorthand fl = "d" \/ Shorthand fl = "w").
Proof.
  unfold usable. rewrite !andb_false_iff, !negb_false_iff. split.
  - intros H.
    repeat destruct H as [H | H];
      first [apply nameUsed_true in H | apply aliasUsed_true in H];
      destruct H as (fl & Hin & E); exists fl; (split; [exact Hin |]);
      rewrite E; simpl; tauto.
  - intros (fl & Hin & [H | [H | H]]).
    + simpl in H.
      repeat destruct H as [H | H]; try contradiction;
        (assert (nameUsed (Name fl) fs = true) as Hn
           by (apply nameUsed_true; exists fl; split; trivial));
        rewrite <- H in Hn; tauto.
    + assert (aliasUsed "d" fs = true) as Hn
        by (apply aliasUsed_true; exists fl; split; trivial).
      tauto.
    + assert (aliasUsed "w" fs = true) as Hn
        by (apply aliasUsed_true; exists fl; split; trivial).
      tauto.
Qed.

Lemma execState_String (t : RelationType) :
  execState RelationType_String t = if String.eqb t "" then "ppmi" else t.
Proof. destruct t; reflexivity. Qed.

(** X10: when [LoadForCmd] returns, the record [opts] points to holds the
    defaults of the package in every field, whatever it held before; only
    a relation type that was not empty survives, and an empty one has
    become ppmi, so that the zero value of [Options] becomes the value of
    [DefaultOptions]. *)
Theorem LoadForCmd_resets_the_options (g : Vars) (c c' : Cmd) :
  runStateT (LoadForCmd g) c = Some (tt, c') ->
  Opts c'
  = Relation (if String.eqb (Options.RelationType (Opts c)) ""
              then "ppmi" else Options.RelationType (Opts c))
      (DefaultOptions g).
Proof.
  rewrite LoadForCmd_run. destruct (usable (Flags c)); [| discriminate].
  intros H. injection H as <-. cbn [Opts].
  rewrite execState_String. reflexivity.
Qed.

Lemma LoadForCmd_resets_the_options_witness :
  Opts {| Flags := boundFlags (initVars host8) "logco";
          Opts := Relation "logco" (DefaultOptions (initVars host8)) |}
  = Relation "logco" (DefaultOptions (initVars host8)).
Proof.
  apply (LoadForCmd_resets_the_options (initVars host8)
           (newCmd (Dim 300 (Relation "logco" Options.zero)))
           {| Flags := boundFlags (initVars host8) "logco";
              Opts := Relation "logco" (DefaultOptions (initVars host8)) |}).
  vm_compute. reflexivity.
Defined.

(** X11: [LoadForCmd] cannot be called twice on one command: the second
    call finds its own flags registered and panics. *)
Theorem LoadForCmd_twice_panics (g g' : Vars) (c : Cmd) :
  runStateT (LoadForCmd g ;; LoadForCmd g') c = None.
Proof.
  rewrite bind_run, LoadForCmd_run.
  destruct (usable (Flags c)); [| reflexivity].
  rewrite LoadForCmd_run. cbn [Flags].
  match goal with
  | |- (if usable ?fs then _ else _) = _ =>
      assert (usable fs = false) as ->; [| reflexivity]
  end.
  apply usable_false.
  eexists. split.
  - apply in_or_app. right. left. reflexivity.
  - left. left. reflexivity.
Qed.

(** X12: when [LoadForCmd] returns, the flags the command had are still
    there, in their order, followed by sixteen new flags whose names are
    batch, dim, goroutines, in-memory, initlr, iter, max-count, min-count,
    sample, rel, smooth, threshold, theta, to-lower, verbose and window:
    neither the package variables nor the options change which flags are
    registered. *)
Theorem LoadForCmd_appends_its_flags (g : Vars) (c c' : Cmd) :
  runStateT (LoadForCmd g) c = Some (tt, c') ->
  exists added : list Flag,
    Flags c' = (Flags c ++ added)%list /\ map Name added = flagNames.
Proof.
  rewrite LoadForCmd_run. destruct (usable (Flags c)); [| discriminate].
  intros H. injection H as <-. cbn [Flags].
  eexists. split; reflexivity.
Qed.

Lemma LoadForCmd_appends_its_flags_witness :
  exists added : list Flag,
    Flags {| Flags := boundFlags (initVars host4) "ppmi";
             Opts := DefaultOptions (initVars host4) |}
    = (Flags (newCmd Options.zero) ++ added)%list
    /\ map Name added = flagNames.
Proof.
  apply (LoadForCmd_appends_its_flags (initVars host4) (newCmd Options.zero)
           {| Flags := boundFlags (initVars host4) "ppmi";
              Opts := DefaultOptions (initVars host4) |}).
  vm_compute. reflexivity.
Defined.

(** X13: [LoadForCmd] panics exactly when the command already has a flag
    with one of its sixteen names or with the alias d or w; on any other
    command it returns. *)
Theorem LoadForCmd_panics_iff_a_flag_is_taken (g : Vars) (c : Cmd) :
  runStateT (LoadForCmd g) c = None
  <-> exists fl, In fl (Flags c)
                 /\ (In (Name fl) flagNames
                     \/ Shorthand fl = "d" \/ Shorthand fl = "w").
Proof.
  rewrite <- usable_false, LoadForCmd_run.
  destruct (usable (Flags c)); split; intros H;
    try reflexivity; discriminate H.
Qed.
